(** * CryptoV6: request / cache / store flow of the crypto API

    A shallow embedding of [database.py] and of the routers
    [routers/market_data.py], [routers/news.py] and [routers/sentiment.py],
    with the properties of the specification stated over it.

    Conventions of the model:
    - a Python [dict] with string keys (a MongoDB document, a JSON object) is
      a [gmap string value]; a Python list is a [list];
    - a Python [float] is a rational number of [Q] with exact arithmetic, and
      the literal [0.2] is the rational [2 # 10];
    - a [datetime] is an integer number of microseconds ([VTime]); the
      [isoformat()] rendering of a datetime is kept as that same [VTime];
    - a handler is a function of the state monad [M], which threads the
      [World] (the four collections, the ObjectId counter, the number of clock
      readings taken, the log of outgoing HTTP requests) and may raise an
      exception;
    - what the repository calls but does not define (the wall clock, the
      [requests] transport, the FinBERT forward pass, the exponential of the
      softmax, [str()] of non-string values) is a field of the environment
      [Env];
    - store operations are the ones of a reachable, answering MongoDB, and
      the forward pass of the model always answers: a failure of the store
      or of the inference is not part of the model;
    - a sorted read compares the datetimes under the sort field; what
      MongoDB does with records of equal or missing sort keys is left to the
      sort of the model, and no statement below depends on it. *)

From Stdlib Require Import ZArith QArith Lqa Lia String Ascii List.
From stdpp Require Import base option list gmap strings sorting pretty.

Set Warnings "-register-all".
Open Scope Z_scope.

(** ** Dynamic values *)

Inductive value : Type :=
| VNone
| VBool (b : bool)
| VInt (z : Z)
| VNum (q : Q)
| VStr (s : string)
| VTime (t : Z)
| VId (n : nat)
| VList (l : list value)
| VDict (d : gmap string value).

Abbreviation doc := (gmap string value).

(** Python exceptions: the [HTTPException] of FastAPI and every other
    exception, kept with its class name and its [str()]. *)
Inductive exn : Type :=
| HTTPException (status_code : Z) (detail : string)
| PyError (kind : string) (msg : string).

Definition str_exn (e : exn) : string :=
  match e with
  | HTTPException c d => (pretty c +:+ ": " +:+ d)%string
  | PyError _ msg => msg
  end.

(** ** Strings *)

Module Str.

Definition is_space (c : ascii) : bool :=
  let n := nat_of_ascii c in
  ((9 <=? n)%nat && (n <=? 13)%nat) || ((28 <=? n)%nat && (n <=? 32)%nat).

Definition upper_char (c : ascii) : ascii :=
  let n := nat_of_ascii c in
  if ((97 <=? n)%nat && (n <=? 122)%nat) then ascii_of_nat (n - 32) else c.

Definition lower_char (c : ascii) : ascii :=
  let n := nat_of_ascii c in
  if ((65 <=? n)%nat && (n <=? 90)%nat) then ascii_of_nat (n + 32) else c.

Fixpoint map_chars (f : ascii → ascii) (s : string) : string :=
  match s with
  | EmptyString => EmptyString
  | String c r => String (f c) (map_chars f r)
  end.

(** [s.upper()] and [s.lower()] *)
Definition upper : string → string := map_chars upper_char.
Definition lower : string → string := map_chars lower_char.

Fixpoint lstrip (s : string) : string :=
  match s with
  | String c r => if is_space c then lstrip r else s
  | EmptyString => EmptyString
  end.

Definition rev (s : string) : string :=
  string_of_list_ascii (List.rev (list_ascii_of_string s)).

(** [s.strip()] *)
Definition strip (s : string) : string := rev (lstrip (rev (lstrip s))).

(** [s.split(",")]: never the empty list *)
Fixpoint split (sep : ascii) (s : string) : list string :=
  match s with
  | EmptyString => [EmptyString]
  | String c r =>
      match split sep r with
      | [] => [EmptyString]
      | w :: ws =>
          if Ascii.eqb c sep then EmptyString :: w :: ws
          else String c w :: ws
      end
  end.

(** [sep.join(l)] *)
Fixpoint join (sep : string) (l : list string) : string :=
  match l with
  | [] => EmptyString
  | [s] => s
  | s :: r => (s +:+ sep +:+ join sep r)%string
  end.

(** [needle in hay] on two strings *)
Fixpoint contains (needle hay : string) : bool :=
  String.prefix needle hay ||
  match hay with
  | EmptyString => false
  | String _ r => contains needle r
  end.

(** [s[:n]] for a natural [n] *)
Definition take (n : nat) (s : string) : string := String.substring 0 n s.

End Str.

(** [l[:n]] on a list, with Python's meaning of a negative bound *)
Definition py_slice_to {A} (n : Z) (l : list A) : list A :=
  if 0 <=? n then take (Z.to_nat n) l
  else take (length l - Z.to_nat (- n)) l.

(** ** The environment and the world *)

(** What [requests.get] hands back: it raised a [RequestException], or it
    returned a response. [http_error] is the [str()] of the [HTTPError] that
    [raise_for_status()] raises for this response, [json_body] is what
    [response.json()] gives: the parsed body or the message of the
    [JSONDecodeError] (a [RequestException] too). *)
Record response : Type := Response {
  status_code : Z;
  http_error : string;
  json_body : string + value
}.

Inductive http_outcome : Type :=
| Raised (msg : string)
| Responded (r : response).

Record Env : Type := {
  (** the [n]-th reading of [datetime.utcnow()] *)
  time_source : nat → Z;
  (** the [n]-th call of [requests.get], at this url with these params *)
  requests_get : nat → string → option doc → http_outcome;
  (** tokenizer and forward pass of the model: the three logits
      (negative, neutral, positive) *)
  logits : string → Q * Q * Q;
  (** the exponential that softmax applies to a logit *)
  exp_ : Q → Q;
  (** [str(v)] for a value that is no string *)
  py_format : value → string
}.

Record World : Type := {
  colls : gmap string (list doc);
  next_id : nat;
  ticks : nat;
  requests_log : list (string * option doc)
}.

Definition empty_world : World :=
  {| colls := ∅; next_id := 0; ticks := 0; requests_log := [] |}.

(** [db[collection_name]], in insertion order *)
Definition coll (w : World) (name : string) : list doc :=
  default [] (colls w !! name).

(** ** The monad of handlers *)

Definition M (A : Type) : Type := World → World * (exn + A).

Definition raise {A} (e : exn) : M A := λ w, (w, inl e).
(** [try: m except Exception as e: h e] *)
Definition try_except {A} (m : M A) (h : exn → M A) : M A :=
  λ w, match m w with
       | (w', inl e) => h e w'
       | r => r
       end.
(** a pure step that may raise *)
Definition lift {A} (r : exn + A) : M A := λ w, (w, r).

#[global] Instance M_ret : MRet M := λ A a w, (w, inr a).
#[global] Instance M_bind : MBind M := λ A B k m w,
  match m w with
  | (w', inr a) => k a w'
  | (w', inl e) => (w', inl e)
  end.

Fixpoint mapM {A B} (f : A → M B) (l : list A) : M (list B) :=
  match l with
  | [] => mret []
  | x :: r => y ← f x; ys ← mapM f r; mret (y :: ys)
  end.

(** the same for pure steps *)
#[global] Instance E_ret : MRet (sum exn) := λ A a, inr a.
#[global] Instance E_bind : MBind (sum exn) := λ A B k r,
  match r with inl e => inl e | inr a => k a end.

Fixpoint emap {A B} (f : A → exn + B) (l : list A) : exn + list B :=
  match l with
  | [] => inr []
  | x :: r => y ← f x; ys ← emap f r; mret (y :: ys)
  end.

(** ** Python's dynamic operations *)

Definition type_name (v : value) : string :=
  match v with
  | VNone => "NoneType"
  | VBool _ => "bool"
  | VInt _ => "int"
  | VNum _ => "float"
  | VStr _ => "str"
  | VTime _ => "datetime.datetime"
  | VId _ => "ObjectId"
  | VList _ => "list"
  | VDict _ => "dict"
  end.

(** truth value of a string and of a dict: not empty *)
Definition truthy_str (s : string) : bool :=
  match s with EmptyString => false | _ => true end.

Definition truthy_dict (d : doc) : bool :=
  match map_to_list d with [] => false | _ => true end.

Definition is_str (s : string) (v : value) : bool :=
  match v with VStr s' => String.eqb s s' | _ => false end.

(** [k in v] for a string [k] *)
Definition py_contains (k : string) (v : value) : exn + bool :=
  match v with
  | VStr s => inr (Str.contains k s)
  | VList l => inr (existsb (is_str k) l)
  | VDict d => inr (bool_decide (is_Some (d !! k)))
  | _ => inl (PyError "TypeError"
                ("argument of type '" +:+ type_name v +:+ "' is not iterable"))
  end.

(** [v[k]] for a string [k] *)
Definition py_getitem (v : value) (k : string) : exn + value :=
  match v with
  | VDict d =>
      match d !! k with
      | Some x => inr x
      | None => inl (PyError "KeyError" ("'" +:+ k +:+ "'"))
      end
  | _ => inl (PyError "TypeError"
                ("'" +:+ type_name v +:+ "' object is not subscriptable by str"))
  end.

(** [v.get(k, dflt)] *)
Definition py_get (v : value) (k : string) (dflt : value) : exn + value :=
  match v with
  | VDict d => inr (default dflt (d !! k))
  | _ => inl (PyError "AttributeError"
                ("'" +:+ type_name v +:+ "' object has no attribute 'get'"))
  end.

(** [v.items()] *)
Definition py_items (v : value) : exn + list (string * value) :=
  match v with
  | VDict d => inr (map_to_list d)
  | _ => inl (PyError "AttributeError"
                ("'" +:+ type_name v +:+ "' object has no attribute 'items'"))
  end.

Fixpoint chars (s : string) : list value :=
  match s with
  | EmptyString => []
  | String c r => VStr (String c EmptyString) :: chars r
  end.

(** [for x in v] *)
Definition py_iter (v : value) : exn + list value :=
  match v with
  | VList l => inr l
  | VDict d => inr (VStr <$> (map_to_list d).*1)
  | VStr s => inr (chars s)
  | _ => inl (PyError "TypeError"
                ("'" +:+ type_name v +:+ "' object is not iterable"))
  end.

(** [v[:n]] *)
Definition py_prefix (n : nat) (v : value) : exn + value :=
  match v with
  | VStr s => inr (VStr (Str.take n s))
  | VList l => inr (VList (take n l))
  | _ => inl (PyError "TypeError"
                ("'" +:+ type_name v +:+ "' object is not subscriptable"))
  end.

(** the number that a comparison with a float reads in [v] *)
Definition py_number (v : value) : exn + Q :=
  match v with
  | VNum q => inr q
  | VInt z => inr (inject_Z z)
  | VBool b => inr (if b then 1%Q else 0%Q)
  | _ => inl (PyError "TypeError"
                ("'>' not supported between instances of '" +:+ type_name v
                 +:+ "' and 'float'"))
  end.

(** [any(test(c) for c in l)], which stops at the first hit *)
Fixpoint py_any {A} (test : A → exn + bool) (l : list A) : exn + bool :=
  match l with
  | [] => inr false
  | c :: r => b ← test c; if b : bool then mret true else py_any test r
  end.

(** [a or b] *)
Definition py_or (a b : exn + bool) : exn + bool :=
  x ← a; if x : bool then mret true else b.

(** [[x for x in l if test(x)]] *)
Fixpoint py_filter {A} (test : A → exn + bool) (l : list A) : exn + list A :=
  match l with
  | [] => inr []
  | x :: r =>
      b ← test x; ys ← py_filter test r;
      mret (if b : bool then x :: ys else ys)
  end.

Definition Qltb (x y : Q) : bool := negb (Qle_bool y x).

(** ** The document store (pymongo) *)

(** [insert_one] gives a document that has no [_id] a fresh ObjectId, in
    place: the caller's dict carries it afterwards. *)
Definition with_id (n : nat) (d : doc) : doc :=
  match d !! "_id" with
  | Some _ => d
  | None => <["_id" := VId n]> d
  end.

Definition insert_one (name : string) (d : doc) : M doc := λ w,
  let d' := with_id (next_id w) d in
  ({| colls := <[name := coll w name ++ [d']]> (colls w);
      next_id := S (next_id w);
      ticks := ticks w;
      requests_log := requests_log w |}, inr d').

Definition insert_many (name : string) (ds : list doc) : M (list doc) :=
  mapM (insert_one name) ds.

(** A query [{k: v, ...}] on string fields: every field is there with that
    value. *)
Definition matches (query : list (string * string)) (d : doc) : bool :=
  forallb (λ kv, match d !! kv.1 with
                 | Some (VStr s) => String.eqb s kv.2
                 | _ => false
                 end) query.

(** The key of [sort=[(field, -1)]]: the datetime under [field]; a document
    without one sorts after all the others. *)
Definition sort_key (field : string) (d : doc) : option Z :=
  match d !! field with
  | Some (VTime t) => Some t
  | _ => None
  end.

Definition key_le (a b : option Z) : Prop :=
  match a, b with
  | None, _ => True
  | Some _, None => False
  | Some x, Some y => x ≤ y
  end.

Definition newer_first (field : string) : relation doc :=
  λ d1 d2, key_le (sort_key field d2) (sort_key field d1).

#[global] Instance key_le_dec a b : Decision (key_le a b).
Proof. destruct a, b; simpl; apply _. Defined.

#[global] Instance newer_first_dec field d1 d2 :
  Decision (newer_first field d1 d2).
Proof. unfold newer_first; apply _. Defined.

(** [collection.find(query, sort=[(field, -1)])]: a read, the world is left
    as it is. *)
Definition find (name : string) (query : list (string * string))
    (field : string) : M (list doc) := λ w,
  (w, inr (merge_sort (newer_first field)
             (filter (λ d, matches query d) (coll w name)))).

(** [cursor.limit(n)]: [0] is no limit, a negative [n] limits to [-n]. *)
Definition cursor_limit (n : Z) (l : list doc) : list doc :=
  if n =? 0 then l else take (Z.to_nat (Z.abs n)) l.

(** [collection.find_one(sort=[(field, -1)])] *)
Definition find_one (name : string) (field : string) : M (option doc) :=
  l ← find name [] field; mret (head l).

(** ** database.py *)

Definition MARKET_DATA_COLLECTION : string := "market_data".
Definition NEWS_COLLECTION : string := "news".
Definition SENTIMENT_COLLECTION : string := "sentiment".
Definition TRADES_COLLECTION : string := "trades".

Section Gateway.

Variable E : Env.

(** [datetime.utcnow()] *)
Definition utcnow : M Z := λ w,
  ({| colls := colls w; next_id := next_id w; ticks := S (ticks w);
      requests_log := requests_log w |}, inr (time_source E (ticks w))).

(** The four [store_*] functions return an insert result that no caller
    reads; here they return the caller's dict (or list of dicts) as it is
    after the call, with the fields that were set in place. *)
Definition store_market_data (data : doc) : M doc :=
  now ← utcnow;
  insert_one MARKET_DATA_COLLECTION (<["timestamp" := VTime now]> data).

Definition get_latest_market_data : M (option doc) :=
  find_one MARKET_DATA_COLLECTION "timestamp".

Definition store_news (news_items : list doc) : M (list doc) :=
  items ← mapM (λ item, now ← utcnow;
                        mret (<["stored_at" := VTime now]> item)) news_items;
  if (0 <? length items)%nat then insert_many NEWS_COLLECTION items
  else mret items.

Definition get_recent_news (limit : Z) : M (list doc) :=
  l ← find NEWS_COLLECTION [] "published_at"; mret (cursor_limit limit l).

Definition store_sentiment (coin text : string) (score : Q) : M doc :=
  now ← utcnow;
  insert_one SENTIMENT_COLLECTION
    (<["coin" := VStr coin]>
       (<["text" := VStr text]>
          (<["sentiment_score" := VNum score]>
             (<["timestamp" := VTime now]> ∅)))).

Definition get_sentiment_history (coin : string) (limit : Z) : M (list doc) :=
  l ← find SENTIMENT_COLLECTION [("coin", coin)] "timestamp";
  mret (cursor_limit limit l).

Definition record_trade (user_id coin action : string) (amount price : Q)
    : M doc :=
  now ← utcnow;
  insert_one TRADES_COLLECTION
    (<["user_id" := VStr user_id]>
       (<["coin" := VStr coin]>
          (<["action" := VStr action]>
             (<["amount" := VNum amount]>
                (<["price" := VNum price]>
                   (<["timestamp" := VTime now]> ∅)))))).

Definition get_trade_history (user_id : option string) (limit : Z)
    : M (list doc) :=
  let query :=
    match user_id with
    | Some u => if truthy_str u then [("user_id", u)] else []
    | None => []
    end in
  l ← find TRADES_COLLECTION query "timestamp";
  mret (cursor_limit limit l).

End Gateway.

(** ** The provider client

    [fetch_from_coinmarketcap] has the same text in [routers/market_data.py]
    and in [routers/news.py]. The api key header is a constant of the
    process and is part of what [requests_get] answers to. *)

Section Routers.

Variable E : Env.

(** one call of [requests.get]: it is logged, and the environment answers *)
Definition http_get (url : string) (params : option doc) : M http_outcome :=
  λ w,
  ({| colls := colls w; next_id := next_id w; ticks := ticks w;
      requests_log := requests_log w ++ [(url, params)] |},
   inr (requests_get E (length (requests_log w)) url params)).

(** [response.raise_for_status()]: an [HTTPError] for a 4xx or 5xx status *)
Definition raise_for_status (r : response) : string + unit :=
  if (400 <=? status_code r) && (status_code r <? 600)
  then inl (http_error r) else inr ().

(** the body of the [try]: the [str()] of the [RequestException] that it
    raised, or the parsed JSON *)
Definition fetch_attempt (out : http_outcome) : string + value :=
  match out with
  | Raised msg => inl msg
  | Responded r =>
      match raise_for_status r with
      | inl msg => inl msg
      | inr _ => json_body r
      end
  end.

Definition fetch_from_coinmarketcap (endpoint : string) (params : option doc)
    : M value :=
  let base_url := "https://pro-api.coinmarketcap.com/v1" in
  let url := base_url +:+ "/" +:+ endpoint in
  out ← http_get url params;
  match fetch_attempt out with
  | inr json => mret json
  | inl e =>
      raise (HTTPException 500
               ("Error fetching data from CoinMarketCap: " +:+ e))
  end.

(** ** routers/market_data.py *)

(** one entry of [result["data"]] *)
Definition quote_entry (coin_data : value) : exn + value :=
  name ← py_getitem coin_data "name";
  symbol ← py_getitem coin_data "symbol";
  quote ← py_getitem coin_data "quote";
  usd ← py_getitem quote "USD";
  price ← py_getitem usd "price";
  c1h ← py_getitem usd "percent_change_1h";
  c24h ← py_getitem usd "percent_change_24h";
  c7d ← py_getitem usd "percent_change_7d";
  cap ← py_getitem usd "market_cap";
  vol ← py_getitem usd "volume_24h";
  mret (VDict (<["name" := name]>
               (<["symbol" := symbol]>
                (<["price" := price]>
                 (<["percent_change_1h" := c1h]>
                  (<["percent_change_24h" := c24h]>
                   (<["percent_change_7d" := c7d]>
                    (<["market_cap" := cap]>
                     (<["volume_24h" := vol]> ∅))))))))).

(** the loop over [data["data"].items()]; the entries are visited in the
    order of the map, so that of several malformed entries the one that
    raises may differ from Python's *)
Definition quotes_of (data : value) : exn + doc :=
  has ← py_contains "data" data;
  if has : bool then
    inner ← py_getitem data "data";
    items ← py_items inner;
    entries ← emap (λ kv : string * value,
                      q ← quote_entry kv.2; mret (kv.1, q)) items;
    mret (list_to_map entries)
  else mret ∅.

(** the part of [get_market_data] below the cache check *)
Definition fetch_market_data (symbols : string) (limit : Z) : M doc :=
  let symbol_list := Str.strip <$> Str.split "," symbols in
  let params : doc :=
    <["symbol" := VStr (Str.join "," symbol_list)]>
      (<["limit" := VInt limit]> (<["convert" := VStr "USD"]> ∅)) in
  data ← fetch_from_coinmarketcap "cryptocurrency/quotes/latest" (Some params);
  quotes ← lift (quotes_of data);
  let result : doc :=
    <["data" := VDict quotes]> (<["timestamp" := VNone]> ∅) in
  store_market_data E result.

Definition get_market_data (symbols : string) (limit : Z) (use_cache : bool)
    : M doc :=
  if use_cache then
    cached_data ← get_latest_market_data;
    match cached_data with
    | Some cached_data =>
        if truthy_dict cached_data then mret (delete "_id" cached_data)
        else fetch_market_data symbols limit
    | None => fetch_market_data symbols limit
    end
  else fetch_market_data symbols limit.

Definition get_global_metrics : M doc :=
  data ← fetch_from_coinmarketcap "global-metrics/quotes/latest" None;
  has ← lift (py_contains "data" data);
  if has : bool then
    lift (d ← py_getitem data "data";
          quote ← py_getitem d "quote";
          usd ← py_getitem quote "USD";
          cap ← py_getitem usd "total_market_cap";
          vol ← py_getitem usd "total_volume_24h";
          btc ← py_getitem d "btc_dominance";
          eth ← py_getitem d "eth_dominance";
          act ← py_getitem d "active_cryptocurrencies";
          upd ← py_getitem d "last_updated";
          mret (<["total_market_cap" := cap]>
                (<["total_volume_24h" := vol]>
                 (<["btc_dominance" := btc]>
                  (<["eth_dominance" := eth]>
                   (<["active_cryptocurrencies" := act]>
                    (<["last_updated" := upd]> (∅ : doc))))))))
  else raise (HTTPException 500 "Failed to fetch global metrics").

(** ** routers/news.py *)

(** [[coin.strip().upper() for coin in coins.split(",")]] *)
Definition coin_list_of (coins : string) : list string :=
  (λ coin, Str.upper (Str.strip coin)) <$> Str.split "," coins.

(** [if coins:] for the optional query parameter *)
Definition coins_given (coins : option string) : option string :=
  match coins with
  | Some c => if truthy_str c then Some c else None
  | None => None
  end.

(** [coin in article.get(k, "")] *)
Definition coin_in_field (coin : string) (article : doc) (k : string)
    : exn + bool :=
  py_contains coin (default (VStr "") (article !! k)).

Definition cached_news_filter (coin_list : list string) (article : doc)
    : exn + bool :=
  py_any (λ coin, py_or (coin_in_field coin article "title")
                        (coin_in_field coin article "description"))
         coin_list.

(** [any(coin == related_coin.get("symbol") for related_coin in
    item.get("related_coins", []))] *)
Definition coin_is_related (coin : string) (item : doc) : exn + bool :=
  related ← py_iter (default (VList []) (item !! "related_coins"));
  py_any (λ related_coin,
            symbol ← py_get related_coin "symbol" VNone;
            mret (is_str coin symbol)) related.

Definition fetched_news_filter (coin_list : list string) (item : doc)
    : exn + bool :=
  py_any (λ coin, py_or (coin_in_field coin item "title")
                   (py_or (coin_in_field coin item "description")
                          (coin_is_related coin item)))
         coin_list.

(** one [news_item] of the provider's answer *)
Definition news_item_of (item : value) : exn + doc :=
  title ← py_get item "title" VNone;
  url ← py_get item "url" VNone;
  description ← py_get item "description" VNone;
  published_at ← py_get item "published_at" VNone;
  source ← py_get item "source" VNone;
  related ← py_get item "coins" (VList []);
  mret (<["title" := title]>
        (<["url" := url]>
         (<["description" := description]>
          (<["published_at" := published_at]>
           (<["source" := source]>
            (<["related_coins" := related]> (∅ : doc))))))).

Definition news_response (news : list doc) : doc :=
  <["news" := VList (VDict <$> news)]> ∅.

(** the body of the [try] *)
Definition fetch_news (coins : option string) (limit : Z) : M doc :=
  let params : doc := <["limit" := VInt (limit + 10)]> ∅ in
  data ← fetch_from_coinmarketcap "cryptocurrency/news" (Some params);
  has ← lift (py_contains "data" data);
  if has : bool then
    news_items ← lift (inner ← py_getitem data "data";
                       items ← py_iter inner;
                       emap news_item_of items);
    news_items ← lift (match coins_given coins with
                       | Some c =>
                           py_filter (fetched_news_filter (coin_list_of c))
                                     news_items
                       | None => mret news_items
                       end);
    let news_items := py_slice_to limit news_items in
    stored ← store_news E news_items;
    mret (news_response stored)
  else raise (HTTPException 500 "Failed to fetch news data").

Definition HOUR : Z := 3600 * 1000000.

(** the [i]-th simulated article; [coins_to_include] is never empty, and the
    index [i % len(coins_to_include)] is within it *)
Definition simulated_item (current_time : Z) (coins_to_include : list string)
    (i : nat) : doc :=
  let timestamp := current_time - Z.of_nat i * HOUR in
  let coin :=
    default EmptyString
      (coins_to_include !! (i mod length coins_to_include)%nat) in
  <["title" := VStr (coin +:+ " Shows Promising Movement in Today's Trading")]>
  (<["url" := VStr ("https://example.com/crypto-news/" +:+ Str.lower coin
                    +:+ "-update")]>
   (<["description" :=
        VStr ("The cryptocurrency " +:+ coin +:+
              " has shown significant movement today with traders taking interest in its latest developments.")]>
    (<["published_at" := VTime timestamp]>
     (<["source" := VStr "CryptoNewsSimulator"]>
      (<["related_coins" := VList [VDict (<["symbol" := VStr coin]> ∅)]]>
       ∅))))).

(** the body of the [except Exception] *)
Definition simulate_news (coins : option string) (limit : Z) : M doc :=
  current_time ← utcnow E;
  let coins_to_include :=
    match coins_given coins with
    | Some c => coin_list_of c
    | None => ["BTC"; "ETH"; "XRP"; "LTC"; "ADA"]
    end in
  let simulated_news :=
    simulated_item current_time coins_to_include <$> seq 0 (Z.to_nat limit) in
  stored ← store_news E simulated_news;
  mret (news_response stored).

(** the part of [get_crypto_news] below the cache check *)
Definition fetch_or_simulate_news (coins : option string) (limit : Z)
    : M doc :=
  try_except (fetch_news coins limit) (λ _, simulate_news coins limit).

Definition get_crypto_news (coins : option string) (limit : Z)
    (use_cache : bool) : M doc :=
  if use_cache then
    cached_news ← get_recent_news limit;
    match cached_news with
    | [] => fetch_or_simulate_news coins limit
    | _ =>
        let cached_news := delete "_id" <$> cached_news in
        match coins_given coins with
        | Some c =>
            filtered_news ← lift (py_filter
                                    (cached_news_filter (coin_list_of c))
                                    cached_news);
            mret (news_response filtered_news)
        | None => mret (news_response cached_news)
        end
    end
  else fetch_or_simulate_news coins limit.

(** ** routers/sentiment.py *)

(** [torch.nn.functional.softmax] over the three logits *)
Definition softmax (l : Q * Q * Q) : Q * Q * Q :=
  let '(l0, l1, l2) := l in
  let e0 := exp_ E l0 in
  let e1 := exp_ E l1 in
  let e2 := exp_ E l2 in
  let total := (e0 + e1 + e2)%Q in
  ((e0 / total)%Q, (e1 / total)%Q, (e2 / total)%Q).

Record sentiment_result : Type := SentimentResult {
  sentiment_score : Q;
  sentiment_label : string;
  raw_negative : Q;
  raw_neutral : Q;
  raw_positive : Q
}.

(** The model and the tokenizer are loaded on the first call and kept;
    [logits] is their forward pass. *)
Definition analyze_text_sentiment (text : string) : sentiment_result :=
  let '(s0, s1, s2) := softmax (logits E text) in
  let sentiment_score := (s2 - s0)%Q in
  let sentiment_label :=
    if Qltb (2 # 10) sentiment_score then "positive"
    else if Qltb sentiment_score (- (2 # 10)) then "negative"
    else "neutral" in
  {| sentiment_score := sentiment_score;
     sentiment_label := sentiment_label;
     raw_negative := s0;
     raw_neutral := s1;
     raw_positive := s2 |}.

Definition analyze_sentiment (text coin : string) : M doc :=
  let coin := Str.upper coin in
  try_except
    (let sentiment_result := analyze_text_sentiment text in
     store_sentiment E coin text (sentiment_score sentiment_result);;
     now ← utcnow E;
     mret (<["coin" := VStr coin]>
           (<["text" := VStr text]>
            (<["sentiment_score" := VNum (sentiment_score sentiment_result)]>
             (<["sentiment_label" := VStr (sentiment_label sentiment_result)]>
              (<["timestamp" := VTime now]> (∅ : doc)))))))
    (λ e, raise (HTTPException 500
                   ("Error analyzing sentiment: " +:+ str_exn e))).

(** one turn of the loop of [get_coin_sentiment] *)
Definition format_history_item (item : doc) : exn + doc :=
  let item := delete "_id" item in
  match item !! "sentiment_label" with
  | Some _ => mret item
  | None =>
      score ← py_number (default (VInt 0) (item !! "sentiment_score"));
      if Qltb (2 # 10) score then
        mret (<["sentiment_label" := VStr "positive"]> item)
      else if Qltb score (- (2 # 10)) then
        mret (<["sentiment_label" := VStr "negative"]> item)
      else
        mret (<["sentiment_label" := VStr "neutral"]> item)
  end.

Definition history_response (coin : string) (history : list doc) : doc :=
  <["coin" := VStr coin]>
    (<["sentiment_history" := VList (VDict <$> history)]> ∅).

Definition get_coin_sentiment (coin : string) (days : Z) : M doc :=
  let coin := Str.upper coin in
  sentiment_history ← get_sentiment_history coin (days * 10);
  match sentiment_history with
  | [] => mret (history_response coin [])
  | _ =>
      formatted_history ← lift (emap format_history_item sentiment_history);
      mret (history_response coin formatted_history)
  end.

(** [str(v)] inside an f-string *)
Definition py_str (v : value) : string :=
  match v with
  | VStr s => s
  | _ => py_format E v
  end.

(** one turn of the loop over the articles: the entry of [coin_results] and
    its score *)
Definition analyze_article (coin : string) (article : value)
    : M (doc * Q) :=
  text ← lift (title ← py_get article "title" (VStr "");
               description ← py_get article "description" (VStr "");
               head ← py_prefix 100 description;
               mret (py_str title +:+ ". " +:+ py_str head));
  let sentiment_result := analyze_text_sentiment text in
  store_sentiment E coin text (sentiment_score sentiment_result);;
  entry ← lift (title ← py_get article "title" VNone;
                url ← py_get article "url" VNone;
                published_at ← py_get article "published_at" VNone;
                mret (<["title" := title]>
                      (<["url" := url]>
                       (<["published_at" := published_at]>
                        (<["sentiment_score" :=
                             VNum (sentiment_score sentiment_result)]>
                         (<["sentiment_label" :=
                              VStr (sentiment_label sentiment_result)]>
                          (∅ : doc)))))));
  mret (entry, sentiment_score sentiment_result).

(** [sum(...)], from the left *)
Definition Qsum (l : list Q) : Q := foldl Qplus 0%Q l.

(** what [results[coin]] is set to when the [try] runs through *)
Definition coin_summary (coin_results : list (doc * Q)) : doc :=
  match coin_results with
  | [] =>
      <["articles" := VList []]>
        (<["average_sentiment" := VInt 0]>
           (<["overall_sentiment" := VStr "neutral"]> ∅))
  | _ =>
      let avg_sentiment :=
        (Qsum coin_results.*2 / inject_Z (Z.of_nat (length coin_results)))%Q in
      <["articles" := VList (VDict <$> coin_results.*1)]>
        (<["average_sentiment" := VNum avg_sentiment]>
           (<["overall_sentiment" :=
                VStr (if Qltb (2 # 10) avg_sentiment then "positive"
                      else if Qltb avg_sentiment (- (2 # 10)) then "negative"
                      else "neutral")]> ∅))
  end.

(** and when it raises *)
Definition coin_failure (e : exn) : doc :=
  <["error" := VStr ("Failed to analyze news sentiment: " +:+ str_exn e)]>
    (<["articles" := VList []]> ∅).

(** the body of the [try] for one coin *)
Definition analyze_coin_news (coin : string) (limit : Z) : M doc :=
  out ← http_get ("http://localhost:8000/api/crypto-news?coins=" +:+ coin
                  +:+ "&limit=" +:+ pretty limit) None;
  news_data ← match out with
              | Raised msg => raise (PyError "RequestException" msg)
              | Responded r =>
                  match json_body r with
                  | inl msg => raise (PyError "JSONDecodeError" msg)
                  | inr json => mret json
                  end
              end;
  articles ← lift (news ← py_get news_data "news" (VList []); py_iter news);
  coin_results ← mapM (analyze_article coin) articles;
  mret (coin_summary coin_results).

(** one turn of the loop over [coin_list]: [results[coin]] is set *)
Definition analyze_coin (limit : Z) (results : gmap string doc)
    (coin : string) : M (gmap string doc) :=
  summary ← try_except (analyze_coin_news coin limit)
                       (λ e, mret (coin_failure e));
  mret (<[coin := summary]> results).

Fixpoint foldM {A B} (f : B → A → M B) (b : B) (l : list A) : M B :=
  match l with
  | [] => mret b
  | x :: r => b' ← f b x; foldM f b' r
  end.

Definition analyze_news_sentiment (coins : string) (limit : Z)
    : M (gmap string doc) :=
  let coin_list := coin_list_of coins in
  foldM (analyze_coin limit) ∅ coin_list.

End Routers.

(** ** Statements of the specification *)

(** The label that the fixed thresholds give to the score [s]. *)
Definition threshold_label (s : Q) (label : string) : Prop :=
  (label = "positive" ↔ (2 # 10 < s)%Q) ∧
  (label = "negative" ↔ (s < - (2 # 10))%Q) ∧
  (label = "neutral" ↔ ¬ (2 # 10 < s)%Q ∧ ¬ (s < - (2 # 10))%Q).

(** The exponential is positive: all that the proofs use of it. *)
Definition exp_positive (E : Env) : Prop := ∀ x, (0 < exp_ E x)%Q.

(** The sentiment records that the history endpoint reads for [coin]. *)
Definition history_read (w : World) (coin : string) (days : Z) : list doc :=
  cursor_limit (days * 10)
    (merge_sort (newer_first "timestamp")
       (filter (λ d, matches [("coin", Str.upper coin)] d)
          (coll w SENTIMENT_COLLECTION))).

(** An environment to run the model on: a clock that advances by a second
    at each reading, a provider that is down, a news endpoint that answers
    the loopback call for BTC alone, and a positive, increasing stand-in for
    the exponential. *)
Definition demo_news : value :=
  VDict (<["news" :=
            VList [VDict (<["title" := VStr "Bitcoin surges to new highs"]>
                          (<["url" := VStr "https://example.com/btc"]>
                           (<["description" := VStr "BTC rallies"]>
                            (<["published_at" := VTime 1699990000000000]>
                             ∅))))]]> ∅).

Definition demo_exp (x : Q) : Q :=
  if Qle_bool x 0 then (1 / (1 - x))%Q else (1 + x)%Q.

Definition demo_env : Env :=
  {| time_source := λ n, 1700000000000000 + 1000000 * Z.of_nat n;
     requests_get := λ _ url _,
       if String.prefix "http://localhost:8000/api/crypto-news?coins=BTC&" url
       then Responded {| status_code := 200; http_error := "";
                         json_body := inr demo_news |}
       else Raised "Connection aborted.";
     logits := λ text, if String.prefix "Bitcoin surges" text
                       then ((-2)%Q, 0%Q, 3%Q) else (0%Q, 1%Q, 0%Q);
     exp_ := demo_exp;
     py_format := λ v, type_name v |}.

(** What the news-sentiment endpoint puts under a key: the object of a
    failure or the summary of a coin. *)
Definition result_shape (d : doc) : Prop :=
  (∃ e, d = coin_failure e) ∨ (∃ coin_results, d = coin_summary coin_results).

(** [w'] is [w] with [new] appended to the collection [name]. *)
Definition appended (w w' : World) (name : string) (new : list doc) : Prop :=
  ∀ n, coll w' n = if decide (n = name) then coll w n ++ new else coll w n.

(** the items of [store_news] after the loop that stamps them *)
Definition stamp_items (E : Env) (tick0 : nat) (items : list doc) : list doc :=
  imap (λ i item, <["stored_at" := VTime (time_source E (tick0 + i))]> item)
       items.

(** the documents of [insert_many] with their ObjectIds *)
Definition assign_ids (id0 : nat) (items : list doc) : list doc :=
  imap (λ i item, with_id (id0 + i) item) items.

(** The coins that the simulated news go through. *)
Definition coins_to_include (coins : option string) : list string :=
  match coins_given coins with
  | Some c => coin_list_of c
  | None => ["BTC"; "ETH"; "XRP"; "LTC"; "ADA"]
  end.






(** A document of the store has its [_id]. *)
Definition has_id (d : doc) : Prop := is_Some (d !! "_id").


(** The calls of the store gateway, and the world after one of them and
    after a sequence of them. *)
Inductive gateway_call : Type :=
| StoreMarketData (data : doc)
| GetLatestMarketData
| StoreNews (news_items : list doc)
| GetRecentNews (limit : Z)
| StoreSentiment (coin text : string) (score : Q)
| GetSentimentHistory (coin : string) (limit : Z)
| RecordTrade (user_id coin action : string) (amount price : Q)
| GetTradeHistory (user_id : option string) (limit : Z).

Definition run_call (E : Env) (w : World) (c : gateway_call) : World :=
  match c with
  | StoreMarketData data => (store_market_data E data w).1
  | GetLatestMarketData => (get_latest_market_data w).1
  | StoreNews news_items => (store_news E news_items w).1
  | GetRecentNews limit => (get_recent_news limit w).1
  | StoreSentiment coin text score => (store_sentiment E coin text score w).1
  | GetSentimentHistory coin limit => (get_sentiment_history coin limit w).1
  | RecordTrade user_id coin action amount price =>
      (record_trade E user_id coin action amount price w).1
  | GetTradeHistory user_id limit => (get_trade_history user_id limit w).1
  end.

Definition run_calls (E : Env) (w : World) (cs : list gateway_call) : World :=
  foldl (run_call E) w cs.

Definition is_read (c : gateway_call) : bool :=
  match c with
  | GetLatestMarketData | GetRecentNews _ | GetSentimentHistory _ _
  | GetTradeHistory _ _ => true
  | _ => false
  end.

(** Worlds to run the model on: two market snapshots, three trades of two
    users, one sentiment record. *)
Definition demo_snapshot (price : Q) : doc :=
  <["data" := VDict (<["BTC" := VDict (<["price" := VNum price]> ∅)]> ∅)]>
    (<["timestamp" := VNone]> ∅).

Definition demo_market_world : World :=
  run_calls demo_env empty_world
    [StoreMarketData (demo_snapshot 50000);
     StoreMarketData (demo_snapshot 51000)].

Definition demo_trade_world : World :=
  run_calls demo_env empty_world
    [RecordTrade "alice" "BTC" "buy" 1 50000;
     RecordTrade "bob" "ETH" "sell" 2 3000;
     RecordTrade "alice" "BTC" "sell" 1 51000].

Definition demo_sentiment_world : World :=
  run_calls demo_env empty_world
    [StoreSentiment "BTC" "Bitcoin surges to new highs" (7 # 10)].




(** The world after the news endpoint has simulated three articles. *)
Definition demo_news_world : World :=
  (get_crypto_news demo_env (Some "btc, eth") 3 false empty_world).1.

(** * Proofs *)

(** ** Thresholds *)

Lemma Qltb_lt (x y : Q) : Qltb x y = true ↔ (x < y)%Q.
Proof.
  unfold Qltb. rewrite negb_true_iff, <- not_true_iff_false, Qle_bool_iff.
  split; [apply Qnot_le_lt | apply Qlt_not_le].
Qed.

Lemma Qltb_ge (x y : Q) : Qltb x y = false ↔ ¬ (x < y)%Q.
Proof. rewrite <- Qltb_lt. destruct (Qltb x y); intuition congruence. Qed.

(** The three-way test, as each of the three places of the source writes
    it, satisfies the thresholds. *)
Lemma threshold_test (s : Q) :
  threshold_label s
    (if Qltb (2 # 10) s then "positive"
     else if Qltb s (- (2 # 10)) then "negative" else "neutral").
Proof.
  unfold threshold_label.
  destruct (Qltb (2 # 10) s) eqn:Hp; [apply Qltb_lt in Hp | apply Qltb_ge in Hp].
  - repeat split; try done; intros; try lra; tauto.
  - destruct (Qltb s (- (2 # 10))) eqn:Hn;
      [apply Qltb_lt in Hn | apply Qltb_ge in Hn];
      repeat split; try done; intros; tauto.
Qed.

(** ** The monads *)

Ltac munfold :=
  unfold mbind, mret, M_bind, M_ret, E_bind, E_ret, lift, raise, try_except
    in *.

Lemma mbind_run {A B} (m : M A) (k : A → M B) (w : World) :
  (m ≫= k) w = match m w with
               | (w', inr a) => k a w'
               | (w', inl e) => (w', inl e)
               end.
Proof. reflexivity. Qed.

Lemma emap_Forall2 {A B} (f : A → exn + B) (l : list A) (l' : list B) :
  emap f l = inr l' → Forall2 (λ x y, f x = inr y) l l'.
Proof.
  revert l'. induction l as [|x l IH]; intros l' H; simpl in H.
  - injection H as <-. constructor.
  - munfold. destruct (f x) as [e|y] eqn:Hx; [discriminate|].
    destruct (emap f l) as [e|ys] eqn:Hl; [discriminate|].
    injection H as <-. constructor; auto.
Qed.

Lemma emap_total {A B} (f : A → exn + B) (g : A → B) (l : list A) :
  Forall (λ x, f x = inr (g x)) l → emap f l = inr (g <$> l).
Proof.
  induction 1 as [|x l Hx _ IH]; simpl; [done|].
  munfold. by rewrite Hx, IH.
Qed.

(** ** C1: the labels *)

Lemma format_history_item_backfill (record item : doc) (s : Q) :
  record !! "sentiment_label" = None →
  record !! "sentiment_score" = Some (VNum s) →
  format_history_item record = inr item →
  ∃ label, threshold_label s label ∧
           item = <["sentiment_label" := VStr label]> (delete "_id" record).
Proof.
  intros Hl Hs. unfold format_history_item.
  rewrite !lookup_delete_ne by done. rewrite Hl, Hs. simpl. munfold.
  intros H.
  exists (if Qltb (2 # 10) s then "positive"
          else if Qltb s (- (2 # 10)) then "negative" else "neutral").
  split; [apply threshold_test|].
  destruct (Qltb (2 # 10) s); [congruence|].
  destruct (Qltb s (- (2 # 10))); congruence.
Qed.

(** A record that [store_sentiment] wrote is always formatted. *)
Lemma format_history_item_total (record : doc) (s : Q) :
  record !! "sentiment_score" = Some (VNum s) →
  ∃ item, format_history_item record = inr item.
Proof.
  intros Hs. unfold format_history_item.
  rewrite !lookup_delete_ne by done. rewrite Hs.
  destruct (record !! "sentiment_label"); simpl; munfold; [eauto|].
  destruct (Qltb (2 # 10) s); [eauto|].
  destruct (Qltb s (- (2 # 10))); eauto.
Qed.

Lemma coin_summary_overall (coin_results : list (doc * Q)) (label : string) :
  coin_summary coin_results !! "overall_sentiment" = Some (VStr label) →
  ∃ v s, coin_summary coin_results !! "average_sentiment" = Some v ∧
         py_number v = inr s ∧ threshold_label s label.
Proof.
  destruct coin_results as [|r rs]; unfold coin_summary.
  - rewrite !lookup_insert_ne, lookup_insert_eq by done.
    intros [= <-]. exists (VInt 0), (inject_Z 0).
    rewrite lookup_insert_ne, lookup_insert_eq by done.
    split; [done|]. split; [done|]. exact (threshold_test (inject_Z 0)).
  - set (avg := (Qsum _ / _)%Q).
    rewrite !lookup_insert_ne, lookup_insert_eq by done.
    intros [= <-]. exists (VNum avg), avg.
    rewrite lookup_insert_ne, lookup_insert_eq by done.
    split; [done|]. split; [done|]. apply threshold_test.
Qed.

Lemma foldM_invariant {A B} (P : B → Prop) (f : B → A → M B) :
  (∀ b x w, P b → ∃ w' b', f b x w = (w', inr b') ∧ P b') →
  ∀ l b w, P b → ∃ w' b', foldM f b l w = (w', inr b') ∧ P b'.
Proof.
  intros Hf. induction l as [|x l IH]; intros b w Hb; simpl.
  - by exists w, b.
  - destruct (Hf b x w Hb) as (w1 & b1 & Hx & Hb1).
    destruct (IH b1 w1 Hb1) as (w2 & b2 & Hl & Hb2).
    exists w2, b2. split; [|done]. munfold. by rewrite Hx.
Qed.

Lemma foldM_app {A B} (f : B → A → M B) (l1 l2 : list A) (b : B) (w : World) :
  foldM f b (l1 ++ l2) w =
  match foldM f b l1 w with
  | (w1, inr b1) => foldM f b1 l2 w1
  | (w1, inl e) => (w1, inl e)
  end.
Proof.
  revert b w. induction l1 as [|x l1 IH]; intros b w; simpl; [done|].
  munfold. destruct (f b x w) as [w1 [e|b1]]; [done|]. apply IH.
Qed.

(** ** The loop of the news-sentiment endpoint *)

Lemma analyze_coin_step E limit results coin w :
  analyze_coin E limit results coin w =
  match analyze_coin_news E coin limit w with
  | (w', inr summary) => (w', inr (<[coin := summary]> results))
  | (w', inl e) => (w', inr (<[coin := coin_failure e]> results))
  end.
Proof.
  unfold analyze_coin. munfold.
  by destruct (analyze_coin_news E coin limit w) as [w' [e|d]].
Qed.

Lemma analyze_coin_news_summary E coin limit w w' summary :
  analyze_coin_news E coin limit w = (w', inr summary) →
  ∃ coin_results, summary = coin_summary coin_results.
Proof.
  unfold analyze_coin_news. munfold. unfold http_get.
  destruct (requests_get E _ _ _) as [msg|r]; [done|].
  destruct (json_body r) as [msg|json]; [done|].
  destruct (match py_get json "news" (VList []) with
            | inl e => inl e | inr a => py_iter a end) as [e|articles];
    [done|].
  destruct (mapM _ articles _) as [w2 [e|rs]]; [done|].
  intros [= _ <-]. by exists rs.
Qed.

Lemma analyze_news_sentiment_shape E coins limit w :
  ∃ w' results,
    analyze_news_sentiment E coins limit w = (w', inr results) ∧
    map_Forall (λ _ d, result_shape d) results.
Proof.
  unfold analyze_news_sentiment.
  apply foldM_invariant; [|apply map_Forall_empty].
  intros results coin w0 Hres. rewrite analyze_coin_step.
  destruct (analyze_coin_news E coin limit w0) as [w1 [e|d]] eqn:Hc.
  - eexists _, _. split; [done|]. apply map_Forall_insert_2; [|done].
    left. by exists e.
  - eexists _, _. split; [done|]. apply map_Forall_insert_2; [|done].
    right. by eapply analyze_coin_news_summary.
Qed.

(** C1. Every sentiment label follows from its score by the fixed
    thresholds (positive iff the score is above 0.2, negative iff it is
    below -0.2, neutral otherwise): the label of a freshly scored text, the
    label that the history endpoint gives on read to a stored record that
    has none, and the overall label of a coin in the news-sentiment
    endpoint. *)
Theorem sentiment_labels_follow_thresholds :
  (∀ E text,
     threshold_label (sentiment_score (analyze_text_sentiment E text))
                     (sentiment_label (analyze_text_sentiment E text))) ∧
  (∀ w coin days w' resp,
     get_coin_sentiment coin days w = (w', inr resp) →
     ∃ items,
       resp = history_response (Str.upper coin) items ∧
       Forall2 (λ record item, ∀ s,
                  record !! "sentiment_label" = None →
                  record !! "sentiment_score" = Some (VNum s) →
                  ∃ label, threshold_label s label ∧
                    item = <["sentiment_label" := VStr label]>
                             (delete "_id" record))
               (history_read w coin days) items) ∧
  (∀ E coins limit w w' results coin summary label,
     analyze_news_sentiment E coins limit w = (w', inr results) →
     results !! coin = Some summary →
     summary !! "overall_sentiment" = Some (VStr label) →
     ∃ v s, summary !! "average_sentiment" = Some v ∧
            py_number v = inr s ∧ threshold_label s label).
Proof.
  split; [|split].
  - intros E text. unfold analyze_text_sentiment.
    destruct (softmax E (logits E text)) as [[s0 s1] s2]. simpl.
    apply threshold_test.
  - intros w coin days w' resp. unfold get_coin_sentiment.
    unfold get_sentiment_history, find. munfold.
    fold (history_read w coin days).
    destruct (history_read w coin days) as [|r rs] eqn:Hh.
    + intros [= _ <-]. exists []. split; [done|constructor].
    + destruct (emap format_history_item (r :: rs)) as [e|items] eqn:Hf;
        [done|].
      intros [= _ <-]. exists items. split; [done|].
      apply emap_Forall2 in Hf.
      eapply Forall2_impl; [exact Hf|].
      intros record item Hitem s Hl Hs.
      by eapply format_history_item_backfill.
  - intros E coins limit w w' results coin summary label Hrun Hcoin Hlabel.
    destruct (analyze_news_sentiment_shape E coins limit w)
      as (w2 & results2 & Hrun2 & Hshape).
    rewrite Hrun in Hrun2. injection Hrun2 as <- <-.
    destruct (Hshape coin summary Hcoin) as [[e ->]|[rs ->]].
    + unfold coin_failure in Hlabel.
      by rewrite !lookup_insert_ne in Hlabel by done.
    + by apply coin_summary_overall.
Qed.

(** ** C2: the score *)

Lemma ratio_in_unit (e total : Q) :
  (0 < total)%Q → (0 <= e)%Q → (e <= total)%Q →
  (0 <= e / total)%Q ∧ (e / total <= 1)%Q.
Proof.
  intros Ht He Hle. split.
  - apply Qle_shift_div_l; [done|]. lra.
  - apply Qle_shift_div_r; [done|]. lra.
Qed.

Lemma softmax_distribution E (l : Q * Q * Q) :
  exp_positive E →
  let '(p0, p1, p2) := softmax E l in
  ((0 <= p0)%Q ∧ (p0 <= 1)%Q) ∧ ((0 <= p1)%Q ∧ (p1 <= 1)%Q) ∧
  ((0 <= p2)%Q ∧ (p2 <= 1)%Q) ∧ (p0 + p1 + p2 == 1)%Q.
Proof.
  intros Hexp. destruct l as [[l0 l1] l2]. unfold softmax.
  pose proof (Hexp l0) as H0. pose proof (Hexp l1) as H1.
  pose proof (Hexp l2) as H2.
  set (e0 := exp_ E l0) in *. set (e1 := exp_ E l1) in *.
  set (e2 := exp_ E l2) in *.
  assert (0 < e0 + e1 + e2)%Q as Ht by lra.
  repeat split; try (apply ratio_in_unit; lra).
  field. lra.
Qed.

(** C2. The score of every scored text lies in [-1, 1]: it is the
    positive-class probability minus the negative-class probability, and
    each of the three probabilities of the normalized distribution lies in
    [0, 1]. The exponential of the softmax is only known to be positive. *)
Theorem sentiment_score_bounded E text :
  exp_positive E →
  let r := analyze_text_sentiment E text in
  sentiment_score r = (raw_positive r - raw_negative r)%Q ∧
  ((0 <= raw_negative r)%Q ∧ (raw_negative r <= 1)%Q) ∧
  ((0 <= raw_neutral r)%Q ∧ (raw_neutral r <= 1)%Q) ∧
  ((0 <= raw_positive r)%Q ∧ (raw_positive r <= 1)%Q) ∧
  (raw_negative r + raw_neutral r + raw_positive r == 1)%Q ∧
  (- (1) <= sentiment_score r)%Q ∧ (sentiment_score r <= 1)%Q.
Proof.
  intros Hexp. unfold analyze_text_sentiment.
  pose proof (softmax_distribution E (logits E text) Hexp) as Hd.
  destruct (softmax E (logits E text)) as [[s0 s1] s2]. simpl.
  destruct Hd as ((? & ?) & (? & ?) & (? & ?) & ?).
  repeat split; try done; lra.
Qed.

Lemma demo_exp_positive : exp_positive demo_env.
Proof.
  intros x. simpl. unfold demo_exp.
  destruct (Qle_bool x 0) eqn:Hx.
  - apply Qle_bool_iff in Hx. apply Qlt_shift_div_l; lra.
  - assert (¬ (x <= 0)%Q) by (rewrite <- Qle_bool_iff; congruence). lra.
Qed.

Lemma sentiment_score_bounded_witness :
  let r := analyze_text_sentiment demo_env "Bitcoin surges to new highs" in
  sentiment_score r = (raw_positive r - raw_negative r)%Q ∧
  ((0 <= raw_negative r)%Q ∧ (raw_negative r <= 1)%Q) ∧
  ((0 <= raw_neutral r)%Q ∧ (raw_neutral r <= 1)%Q) ∧
  ((0 <= raw_positive r)%Q ∧ (raw_positive r <= 1)%Q) ∧
  (raw_negative r + raw_neutral r + raw_positive r == 1)%Q ∧
  (- (1) <= sentiment_score r)%Q ∧ (sentiment_score r <= 1)%Q.
Proof.
  apply (sentiment_score_bounded demo_env "Bitcoin surges to new highs").
  exact demo_exp_positive.
Defined.

(** ** The store *)

Lemma appended_nil w name : appended w w name [].
Proof. intros n. case_decide; by rewrite ?app_nil_r. Qed.

Lemma appended_trans w1 w2 w3 name l1 l2 :
  appended w1 w2 name l1 → appended w2 w3 name l2 →
  appended w1 w3 name (l1 ++ l2).
Proof.
  intros H1 H2 n. rewrite (H2 n), (H1 n).
  case_decide; [by rewrite app_assoc|done].
Qed.

Lemma insert_one_spec name d w :
  ∃ w', insert_one name d w = (w', inr (with_id (next_id w) d)) ∧
        appended w w' name [with_id (next_id w) d] ∧
        next_id w' = S (next_id w) ∧ ticks w' = ticks w ∧
        requests_log w' = requests_log w.
Proof.
  eexists. split; [reflexivity|]. repeat split.
  intros n. unfold coll at 1. simpl. case_decide as Hn.
  - subst n. by rewrite lookup_insert_eq.
  - by rewrite lookup_insert_ne.
Qed.

Lemma insert_many_spec name items w :
  ∃ w', insert_many name items w = (w', inr (assign_ids (next_id w) items)) ∧
        appended w w' name (assign_ids (next_id w) items) ∧
        next_id w' = (next_id w + length items)%nat ∧ ticks w' = ticks w ∧
        requests_log w' = requests_log w.
Proof.
  unfold insert_many, assign_ids. revert w.
  induction items as [|d items IH]; intros w; simpl.
  - exists w. split; [done|]. split; [apply appended_nil|].
    repeat split. lia.
  - destruct (insert_one_spec name d w) as (w1 & H1 & Ha1 & Hi1 & Ht1 & Hl1).
    destruct (IH w1) as (w2 & H2 & Ha2 & Hi2 & Ht2 & Hl2).
    exists w2. munfold. rewrite H1, H2, Hi1.
    rewrite Nat.add_0_r.
    assert (imap (λ i item, with_id (S (next_id w) + i) item) items =
            imap ((λ i item, with_id (next_id w + i) item) ∘ S) items) as Heq.
    { apply imap_ext. intros i x _. simpl. f_equal. lia. }
    rewrite Heq. split; [done|]. split.
    + rewrite <- Heq, <- Hi1. by apply (appended_trans w w1 w2 name [_]).
    + repeat split; [lia|congruence|congruence].
Qed.

Lemma stamp_loop_spec E items w :
  mapM (λ item, now ← utcnow E;
                mret (<["stored_at" := VTime now]> item)) items w =
  ({| colls := colls w; next_id := next_id w;
      ticks := (ticks w + length items)%nat;
      requests_log := requests_log w |},
   inr (stamp_items E (ticks w) items)).
Proof.
  unfold stamp_items. revert w.
  induction items as [|d items IH]; intros w; simpl.
  - rewrite Nat.add_0_r. by destruct w.
  - munfold. unfold utcnow at 1. rewrite IH. simpl.
    rewrite Nat.add_0_r. do 2 f_equal.
    + f_equal. lia.
    + f_equal. apply imap_ext. intros i x _. simpl. do 3 f_equal. lia.
Qed.

Lemma store_news_spec E items w :
  let stored := assign_ids (next_id w) (stamp_items E (ticks w) items) in
  ∃ w', store_news E items w = (w', inr stored) ∧
        appended w w' NEWS_COLLECTION stored ∧
        next_id w' = (next_id w + length items)%nat ∧
        ticks w' = (ticks w + length items)%nat ∧
        requests_log w' = requests_log w.
Proof.
  intros stored. unfold store_news. rewrite mbind_run, stamp_loop_spec.
  set (w1 := {| colls := colls w; next_id := next_id w;
                ticks := (ticks w + length items)%nat;
                requests_log := requests_log w |}).
  assert (length (stamp_items E (ticks w) items) = length items) as Hlen
    by apply length_imap.
  destruct (0 <? length (stamp_items E (ticks w) items))%nat eqn:Hpos.
  - destruct (insert_many_spec NEWS_COLLECTION
                (stamp_items E (ticks w) items) w1)
      as (w2 & H2 & Ha & Hi & Ht & Hl).
    exists w2. rewrite H2, Hlen in *. by repeat split.
  - apply Nat.ltb_ge in Hpos.
    destruct (stamp_items E (ticks w) items) eqn:Hs; [|simpl in Hpos; lia].
    exists w1. subst stored. simpl.
    split; [done|]. split.
    { intros n. unfold coll. simpl. case_decide; by rewrite ?app_nil_r. }
    repeat split. simpl in Hlen. lia.
Qed.

Lemma with_id_lookup_ne n (d : doc) k :
  k ≠ "_id" → with_id n d !! k = d !! k.
Proof.
  intros Hk. unfold with_id. destruct (d !! "_id"); [done|].
  by rewrite lookup_insert_ne.
Qed.


Lemma with_id_keeps_id n (d : doc) v :
  d !! "_id" = Some v → with_id n d = d.
Proof. intros Hd. unfold with_id. by rewrite Hd. Qed.

Lemma stored_news_item E tick0 id0 (items : list doc) i (item : doc) :
  items !! i = Some item →
  assign_ids id0 (stamp_items E tick0 items) !! i =
  Some (with_id (id0 + i)
          (<["stored_at" := VTime (time_source E (tick0 + i))]> item)).
Proof.
  intros Hi. unfold assign_ids, stamp_items.
  rewrite !list_lookup_imap, Hi. done.
Qed.

(** ** C5: what an insert of the gateway does to the record *)

Lemma store_market_data_spec E data w :
  let stored :=
    with_id (next_id w)
      (<["timestamp" := VTime (time_source E (ticks w))]> data) in
  ∃ w', store_market_data E data w = (w', inr stored) ∧
        appended w w' MARKET_DATA_COLLECTION [stored] ∧
        requests_log w' = requests_log w.
Proof.
  intros stored. eexists. split; [reflexivity|]. split; [|done].
  intros n. unfold coll at 1. simpl. case_decide as Hn.
  - subst n. by rewrite lookup_insert_eq.
  - by rewrite lookup_insert_ne.
Qed.

Lemma store_sentiment_spec E coin text score w :
  let stored :=
    with_id (next_id w)
      (<["coin" := VStr coin]>
         (<["text" := VStr text]>
            (<["sentiment_score" := VNum score]>
               (<["timestamp" := VTime (time_source E (ticks w))]> ∅)))) in
  ∃ w', store_sentiment E coin text score w = (w', inr stored) ∧
        appended w w' SENTIMENT_COLLECTION [stored] ∧
        requests_log w' = requests_log w.
Proof.
  intros stored. eexists. split; [reflexivity|]. split; [|done].
  intros n. unfold coll at 1. simpl. case_decide as Hn.
  - subst n. by rewrite lookup_insert_eq.
  - by rewrite lookup_insert_ne.
Qed.

Lemma record_trade_spec E user_id coin action amount price w :
  let stored :=
    with_id (next_id w)
      (<["user_id" := VStr user_id]>
         (<["coin" := VStr coin]>
            (<["action" := VStr action]>
               (<["amount" := VNum amount]>
                  (<["price" := VNum price]>
                     (<["timestamp" := VTime (time_source E (ticks w))]>
                        ∅)))))) in
  ∃ w', record_trade E user_id coin action amount price w = (w', inr stored) ∧
        appended w w' TRADES_COLLECTION [stored] ∧
        requests_log w' = requests_log w.
Proof.
  intros stored. eexists. split; [reflexivity|]. split; [|done].
  intros n. unfold coll at 1. simpl. case_decide as Hn.
  - subst n. by rewrite lookup_insert_eq.
  - by rewrite lookup_insert_ne.
Qed.

(** C5, as the code has it. Every insert of the gateway sets the server-side
    timestamp of the record to the reading of the clock, whether or not the
    record came with one ([timestamp] for a market snapshot, a sentiment
    record and a trade, [stored_at] for each news article), and leaves every
    other field of the record as it was; the store adds the [_id]. *)
Theorem store_stamps_unconditionally E w :
  (∀ data, ∃ w' stored,
     store_market_data E data w = (w', inr stored) ∧
     appended w w' MARKET_DATA_COLLECTION [stored] ∧
     stored !! "timestamp" = Some (VTime (time_source E (ticks w))) ∧
     ∀ k, k ≠ "timestamp" → k ≠ "_id" → stored !! k = data !! k) ∧
  (∀ items, ∃ w' stored,
     store_news E items w = (w', inr stored) ∧
     appended w w' NEWS_COLLECTION stored ∧
     length stored = length items ∧
     ∀ i item, items !! i = Some item →
       ∃ s, stored !! i = Some s ∧
            s !! "stored_at" = Some (VTime (time_source E (ticks w + i))) ∧
            ∀ k, k ≠ "stored_at" → k ≠ "_id" → s !! k = item !! k) ∧
  (∀ coin text score, ∃ w' stored,
     store_sentiment E coin text score w = (w', inr stored) ∧
     appended w w' SENTIMENT_COLLECTION [stored] ∧
     stored !! "coin" = Some (VStr coin) ∧
     stored !! "text" = Some (VStr text) ∧
     stored !! "sentiment_score" = Some (VNum score) ∧
     stored !! "timestamp" = Some (VTime (time_source E (ticks w)))) ∧
  (∀ user_id coin action amount price, ∃ w' stored,
     record_trade E user_id coin action amount price w = (w', inr stored) ∧
     appended w w' TRADES_COLLECTION [stored] ∧
     stored !! "user_id" = Some (VStr user_id) ∧
     stored !! "coin" = Some (VStr coin) ∧
     stored !! "action" = Some (VStr action) ∧
     stored !! "amount" = Some (VNum amount) ∧
     stored !! "price" = Some (VNum price) ∧
     stored !! "timestamp" = Some (VTime (time_source E (ticks w)))).
Proof.
  split; [|split; [|split]].
  - intros data.
    destruct (store_market_data_spec E data w) as (w' & Hrun & Happ & _).
    eexists _, _. split; [exact Hrun|]. split; [exact Happ|]. split.
    + rewrite with_id_lookup_ne by done. by rewrite lookup_insert_eq.
    + intros k Hk Hid. rewrite with_id_lookup_ne by done.
      by rewrite lookup_insert_ne.
  - intros items.
    destruct (store_news_spec E items w) as (w' & Hrun & Happ & _).
    eexists _, _. split; [exact Hrun|]. split; [exact Happ|]. split.
    + unfold assign_ids, stamp_items. by rewrite !length_imap.
    + intros i item Hi. eexists. split; [by apply stored_news_item|].
      split.
      * rewrite with_id_lookup_ne by done. by rewrite lookup_insert_eq.
      * intros k Hk Hid. rewrite with_id_lookup_ne by done.
        by rewrite lookup_insert_ne.
  - intros coin text score.
    destruct (store_sentiment_spec E coin text score w)
      as (w' & Hrun & Happ & _).
    eexists _, _. split; [exact Hrun|]. split; [exact Happ|].
    rewrite !with_id_lookup_ne by done. by simplify_map_eq.
  - intros user_id coin action amount price.
    destruct (record_trade_spec E user_id coin action amount price w)
      as (w' & Hrun & Happ & _).
    eexists _, _. split; [exact Hrun|]. split; [exact Happ|].
    rewrite !with_id_lookup_ne by done. by simplify_map_eq.
Qed.

(** C5, as the claim states it, fails: a snapshot that comes with a
    timestamp is stored with the reading of the clock in its place. *)
Lemma store_overwrites_supplied_timestamp :
  ∃ w' stored,
    store_market_data demo_env (<["timestamp" := VTime 42]> ∅) empty_world =
      (w', inr stored) ∧
    coll w' MARKET_DATA_COLLECTION = [stored] ∧
    stored !! "timestamp" = Some (VTime 1700000000000000) ∧
    stored !! "timestamp" ≠ Some (VTime 42).
Proof.
  eexists _, _. split; [reflexivity|]. split; [reflexivity|].
  split; [reflexivity|]. vm_compute. discriminate.
Qed.

(** ** C6: the provider client *)

(** C6, as the code has it. Whatever the endpoint and the parameters, a
    fetch makes exactly one request, and when the transport fails (the
    request raises, the status is a 4xx or a 5xx, or the body is no JSON) it
    fails with the one error of status 500 whose detail is a fixed prefix
    followed by the message of the underlying error; the endpoint is not
    put into it. *)
Theorem fetch_failure_uniform E endpoint params w :
  let url := "https://pro-api.coinmarketcap.com/v1" +:+ "/" +:+ endpoint in
  let out := requests_get E (length (requests_log w)) url params in
  let run := fetch_from_coinmarketcap E endpoint params w in
  requests_log run.1 = requests_log w ++ [(url, params)] ∧
  colls run.1 = colls w ∧
  (∀ msg, fetch_attempt out = inl msg →
     run.2 = inl (HTTPException 500
                    ("Error fetching data from CoinMarketCap: " +:+ msg))) ∧
  (∀ msg, out = Raised msg → fetch_attempt out = inl msg) ∧
  (∀ r, out = Responded r → 400 ≤ status_code r < 600 →
     fetch_attempt out = inl (http_error r)).
Proof.
  intros url out run. subst run. unfold fetch_from_coinmarketcap.
  rewrite mbind_run. unfold http_get. fold url. fold out.
  split; [|split; [|split; [|split]]].
  - by destruct (fetch_attempt out).
  - by destruct (fetch_attempt out).
  - intros msg Hmsg. by rewrite Hmsg.
  - intros msg Hout. by rewrite Hout.
  - intros r Hout [Hlo Hhi]. rewrite Hout. unfold fetch_attempt.
    unfold raise_for_status.
    apply Z.leb_le in Hlo. apply Z.ltb_lt in Hhi. by rewrite Hlo, Hhi.
Qed.

(** C6, as the claim states it, fails: when the connection is aborted, the
    detail of the error does not hold the endpoint, and two endpoints fail
    with the same error. *)
Lemma fetch_error_lacks_endpoint :
  (fetch_from_coinmarketcap demo_env "cryptocurrency/news" None
     empty_world).2 =
    inl (HTTPException 500
           "Error fetching data from CoinMarketCap: Connection aborted.") ∧
  Str.contains "cryptocurrency/news"
    "Error fetching data from CoinMarketCap: Connection aborted." = false ∧
  (fetch_from_coinmarketcap demo_env "global-metrics/quotes/latest" None
     empty_world).2 =
  (fetch_from_coinmarketcap demo_env "cryptocurrency/news" None
     empty_world).2.
Proof. vm_compute. done. Qed.

(** ** C9: the collections only grow *)

Lemma appended_prefix w w' name new n :
  appended w w' name new → coll w n `prefix_of` coll w' n.
Proof.
  intros H. rewrite (H n). case_decide; [by eexists|done].
Qed.

Lemma run_call_read E w c : is_read c = true → run_call E w c = w.
Proof. by destruct c. Qed.

Lemma run_call_insert E w c :
  is_read c = false → ∃ name new, appended w (run_call E w c) name new.
Proof.
  destruct c; try done; intros _; cbn [run_call].
  - destruct (store_market_data_spec E data w) as (w' & -> & Ha & _); eauto.
  - destruct (store_news_spec E news_items w) as (w' & -> & Ha & _); eauto.
  - destruct (store_sentiment_spec E coin text score w)
      as (w' & -> & Ha & _); eauto.
  - destruct (record_trade_spec E user_id coin action amount price w)
      as (w' & -> & Ha & _); eauto.
Qed.

(** C9. No operation of the store gateway updates or deletes a record: a
    read leaves the store as it is, an insert appends records to one
    collection, and after any sequence of operations every collection
    still starts with the records that it had, unchanged and in place. *)
Theorem store_append_only E :
  (∀ w c, is_read c = true → run_call E w c = w) ∧
  (∀ w c, is_read c = false →
     ∃ name new, appended w (run_call E w c) name new) ∧
  (∀ cs w name, coll w name `prefix_of` coll (run_calls E w cs) name).
Proof.
  split; [apply run_call_read|]. split; [apply run_call_insert|].
  induction cs as [|c cs IH]; intros w name; simpl; [done|].
  etrans; [|apply IH].
  destruct (is_read c) eqn:Hc.
  - by rewrite run_call_read.
  - destruct (run_call_insert E w c Hc) as (n & new & Ha).
    by eapply appended_prefix.
Qed.

(** ** Sorted reads *)

#[global] Instance key_le_trans : Transitive key_le.
Proof. intros [a|] [b|] [c|]; simpl; try done. lia. Qed.

#[global] Instance key_le_total : Total key_le.
Proof. intros [a|] [b|]; simpl; try tauto. lia. Qed.

#[global] Instance newer_first_trans field : Transitive (newer_first field).
Proof. intros d1 d2 d3 H12 H23. unfold newer_first in *. by etrans. Qed.

#[global] Instance newer_first_total field : Total (newer_first field).
Proof. intros d1 d2. unfold newer_first. apply total, _. Qed.


Lemma filter_no_query (l : list doc) : filter (λ d, matches [] d) l = l.
Proof. induction l as [|d l IH]; [done|]. rewrite filter_cons_True; [|done]. by f_equal. Qed.

(** The head of a sorted read is a record of the collection that no other
    record is newer than. *)
Lemma head_merge_sort field (l : list doc) :
  l ≠ [] →
  ∃ d, head (merge_sort (newer_first field) l) = Some d ∧ d ∈ l ∧
       ∀ d', d' ∈ l → newer_first field d d'.
Proof.
  intros Hl.
  pose proof (merge_sort_Permutation (newer_first field) l) as Hp.
  pose proof (StronglySorted_merge_sort (newer_first field) l) as Hs.
  destruct (merge_sort (newer_first field) l) as [|d s].
  - symmetry in Hp. by apply Permutation_nil_r in Hp.
  - exists d. split; [done|]. split.
    + rewrite <- Hp. by left.
    + intros d' Hd'. rewrite <- Hp in Hd'.
      apply StronglySorted_cons in Hs as [Hall _].
      apply elem_of_cons in Hd' as [->|Hd'].
      * destruct (total (newer_first field) d d); done.
      * rewrite Forall_forall in Hall. by apply Hall.
Qed.


Lemma has_id_truthy (d : doc) : has_id d → truthy_dict d = true.
Proof.
  intros [v Hv]. unfold truthy_dict.
  destruct (map_to_list d) eqn:Hl; [|done].
  apply map_to_list_empty_iff in Hl. subst d. by rewrite lookup_empty in Hv.
Qed.

(** ** C3 and C10: the cache of market data *)

Lemma get_latest_market_data_run w :
  get_latest_market_data w =
  (w, inr (head (merge_sort (newer_first "timestamp")
                   (coll w MARKET_DATA_COLLECTION)))).
Proof.
  unfold get_latest_market_data, find_one, find. rewrite mbind_run.
  by rewrite filter_no_query.
Qed.

Lemma get_market_data_hit E symbols limit w (cached : doc) :
  head (merge_sort (newer_first "timestamp")
          (coll w MARKET_DATA_COLLECTION)) = Some cached →
  has_id cached →
  get_market_data E symbols limit true w = (w, inr (delete "_id" cached)).
Proof.
  intros Hhead Hid. unfold get_market_data.
  rewrite mbind_run, get_latest_market_data_run, Hhead.
  by rewrite has_id_truthy.
Qed.


(** C10. Against one and the same store whose collection of market data is
    not empty, two requests with [use_cache] set get the same response,
    whatever symbols and limits they ask for: the response is a stored
    snapshot without its [_id]. *)
Theorem market_data_cache_ignores_params E w symbols1 limit1 symbols2 limit2 :
  coll w MARKET_DATA_COLLECTION ≠ [] →
  Forall has_id (coll w MARKET_DATA_COLLECTION) →
  get_market_data E symbols1 limit1 true w =
    get_market_data E symbols2 limit2 true w ∧
  ∃ snapshot, snapshot ∈ coll w MARKET_DATA_COLLECTION ∧
    get_market_data E symbols1 limit1 true w =
      (w, inr (delete "_id" snapshot)).
Proof.
  intros Hne Hids.
  destruct (head_merge_sort "timestamp" _ Hne) as (d & Hd & Hin & _).
  rewrite Forall_forall in Hids.
  rewrite !(get_market_data_hit E _ _ w d) by auto.
  split; [done|]. by exists d.
Qed.

(** ** C8: the history of trades *)

Lemma matches_user_id (user_id : string) (d : doc) :
  matches [("user_id", user_id)] d = true →
  d !! "user_id" = Some (VStr user_id).
Proof.
  unfold matches. simpl. rewrite andb_true_r.
  destruct (d !! "user_id") as [[]|]; try done.
  by intros ->%String.eqb_eq.
Qed.

Lemma StronglySorted_take {A} (R : relation A) (n : nat) (l : list A) :
  StronglySorted R l → StronglySorted R (take n l).
Proof.
  intros Hs. rewrite <- (take_drop n l) in Hs.
  by apply StronglySorted_app_1_l in Hs.
Qed.

(** C8, as the code has it. For a user id that is given and not empty and a
    positive limit (20 when none is asked for), the history holds only
    trades of the store with that user id, is ordered by descending
    timestamp, and is no longer than the limit; the store is left as it
    was. *)
Theorem trade_history_filtered w (user_id : string) (limit : Z) :
  user_id ≠ EmptyString → 0 < limit →
  ∃ history,
    get_trade_history (Some user_id) limit w = (w, inr history) ∧
    Forall (λ d, d !! "user_id" = Some (VStr user_id) ∧
                 d ∈ coll w TRADES_COLLECTION) history ∧
    StronglySorted (newer_first "timestamp") history ∧
    Z.of_nat (length history) ≤ limit.
Proof.
  intros Hu Hlimit. unfold get_trade_history.
  assert (truthy_str user_id = true) as -> by by destruct user_id.
  unfold find. rewrite mbind_run. eexists. split; [reflexivity|].
  unfold cursor_limit. destruct (Z.eqb_spec limit 0) as [|_]; [lia|].
  set (sorted := merge_sort _ _).
  split; [|split].
  - apply Forall_forall. intros d Hd.
    apply elem_of_take in Hd as (i & Hd & _).
    apply list_elem_of_lookup_2 in Hd. unfold sorted in Hd.
    rewrite merge_sort_Permutation in Hd.
    apply list_elem_of_filter in Hd as [Hm Hin].
    split; [|done]. apply matches_user_id. by apply Is_true_true.
  - apply StronglySorted_take, StronglySorted_merge_sort; apply _.
  - rewrite length_take. lia.
Qed.

(** C8, as the claim states it, fails: with the empty string for user id
    the history holds the trade of another user, and with the limit 0 it
    holds more than 0 trades. *)
Lemma trade_history_unfiltered_for_empty_user :
  ∃ w trade,
    record_trade demo_env "alice" "BTC" "buy" 1 50000 empty_world =
      (w, inr trade) ∧
    trade !! "user_id" = Some (VStr "alice") ∧
    get_trade_history (Some "") 20 w = (w, inr [trade]) ∧
    get_trade_history (Some "alice") 0 w = (w, inr [trade]).
Proof.
  eexists _, _. split; [reflexivity|]. split; [reflexivity|].
  split; reflexivity.
Qed.

(** ** C7: one coin fails, the others are reported *)

Lemma foldM_analyze_coin E limit (l : list string) results w :
  ∃ w' results',
    foldM (analyze_coin E limit) results l w = (w', inr results') ∧
    (∀ k, k ∉ l → results' !! k = results !! k) ∧
    (∀ k, k ∈ l → is_Some (results' !! k)).
Proof.
  revert results w. induction l as [|coin l IH]; intros results w.
  - exists w, results. split; [done|]. split; [done|].
    intros k Hk. by apply elem_of_nil in Hk.
  - cbn [foldM]. rewrite mbind_run, analyze_coin_step.
    set (d := match (analyze_coin_news E coin limit w).2 with
              | inl e => coin_failure e | inr summary => summary end).
    destruct (IH (<[coin := d]> results) (analyze_coin_news E coin limit w).1)
      as (w' & results' & Hrun & Hother & Hin).
    exists w', results'. split; [|split].
    + subst d. by destruct (analyze_coin_news E coin limit w) as [w1 [e|s]].
    + intros k Hk. apply not_elem_of_cons in Hk as [Hne Hk].
      rewrite Hother by done. by rewrite lookup_insert_ne.
    + intros k Hk. destruct (decide (k ∈ l)) as [|Hnot]; [by apply Hin|].
      apply elem_of_cons in Hk as [->|]; [|done].
      rewrite Hother by done. by rewrite lookup_insert_eq.
Qed.

Lemma coin_summary_no_error (coin_results : list (doc * Q)) :
  coin_summary coin_results !! "error" = None.
Proof. by destruct coin_results. Qed.

(** C7. The request always succeeds, and its result has a key for each
    requested coin and for nothing else. A coin whose processing raises
    (its last processing, when the coin is asked for more than once) gets
    an object with an [error] field and an empty list of articles; a coin
    whose processing runs through gets its summary and no [error] field,
    whatever happened to the coins before it. *)
Theorem news_sentiment_failure_is_per_coin E coins limit w :
  ∃ w' results,
    analyze_news_sentiment E coins limit w = (w', inr results) ∧
    (∀ coin, is_Some (results !! coin) ↔ coin ∈ coin_list_of coins) ∧
    (∀ before coin after,
       coin_list_of coins = before ++ coin :: after → coin ∉ after →
       ∃ w1 results1,
         foldM (analyze_coin E limit) ∅ before w = (w1, inr results1) ∧
         match (analyze_coin_news E coin limit w1).2 with
         | inl e => results !! coin = Some (coin_failure e)
         | inr summary =>
             results !! coin = Some summary ∧ summary !! "error" = None
         end) ∧
    (∀ e, coin_failure e !! "error" =
            Some (VStr ("Failed to analyze news sentiment: " +:+ str_exn e)) ∧
          coin_failure e !! "articles" = Some (VList [])).
Proof.
  unfold analyze_news_sentiment.
  destruct (foldM_analyze_coin E limit (coin_list_of coins) ∅ w)
    as (w' & results & Hrun & Hother & Hin).
  exists w', results. split; [done|]. split; [|split].
  - intros coin. split; [|apply Hin].
    intros Hsome. destruct (decide (coin ∈ coin_list_of coins)); [done|].
    rewrite Hother, lookup_empty in Hsome by done. by destruct Hsome.
  - intros before coin after Hlist Hafter.
    rewrite Hlist, foldM_app in Hrun.
    destruct (foldM_analyze_coin E limit before ∅ w)
      as (w1 & results1 & Hrun1 & _ & _).
    exists w1, results1. split; [done|].
    rewrite Hrun1 in Hrun. cbn [foldM] in Hrun.
    rewrite mbind_run, analyze_coin_step in Hrun.
    destruct (analyze_coin_news E coin limit w1) as [w2 [e|summary]] eqn:Hc;
      cbn [snd].
    + destruct (foldM_analyze_coin E limit after
                  (<[coin := coin_failure e]> results1) w2)
        as (w3 & results3 & Hrun3 & Hother3 & _).
      rewrite Hrun3 in Hrun. injection Hrun as <- <-.
      rewrite Hother3 by done. by rewrite lookup_insert_eq.
    + destruct (foldM_analyze_coin E limit after
                  (<[coin := summary]> results1) w2)
        as (w3 & results3 & Hrun3 & Hother3 & _).
      rewrite Hrun3 in Hrun. injection Hrun as <- <-.
      rewrite Hother3 by done. rewrite lookup_insert_eq. split; [done|].
      apply analyze_coin_news_summary in Hc as [rs ->].
      apply coin_summary_no_error.
  - intros e. by split.
Qed.

(** ** C4: the simulated news *)









(** ** The properties on the demo worlds *)


Lemma demo_market_collection :
  coll demo_market_world MARKET_DATA_COLLECTION =
  [with_id 0 (<["timestamp" := VTime 1700000000000000]> (demo_snapshot 50000));
   with_id 1 (<["timestamp" := VTime 1700000001000000]> (demo_snapshot 51000))].
Proof. reflexivity. Defined.


Lemma market_data_cache_ignores_params_witness :
  get_market_data demo_env "DOGE" 3 true demo_market_world =
  get_market_data demo_env "BTC,ETH" 10 true demo_market_world.
Proof.
  apply market_data_cache_ignores_params.
  - rewrite demo_market_collection. discriminate.
  - rewrite demo_market_collection.
    repeat constructor; vm_compute; eauto.
Defined.

Lemma trade_history_filtered_witness :
  ∃ history,
    get_trade_history (Some "alice") 20 demo_trade_world =
      (demo_trade_world, inr history) ∧
    Forall (λ d, d !! "user_id" = Some (VStr "alice") ∧
                 d ∈ coll demo_trade_world TRADES_COLLECTION) history ∧
    StronglySorted (newer_first "timestamp") history ∧
    Z.of_nat (length history) ≤ 20.
Proof. apply trade_history_filtered; [discriminate|lia]. Defined.


(** ** The model on small inputs *)

Example split_commas :
  Str.split "," "BTC,ETH" = ["BTC"; "ETH"] ∧
  Str.split "," "" = [""] ∧
  Str.split "," "a,,b," = ["a"; ""; "b"; ""].
Proof. repeat split. Qed.

Example strip_and_upper :
  Str.strip "  btc " = "btc" ∧ Str.upper "btc-1" = "BTC-1" ∧
  Str.lower "BTC" = "btc" ∧ coin_list_of "btc, eth" = ["BTC"; "ETH"].
Proof. repeat split. Qed.

Example contains_substring :
  Str.contains "BTC" "The BTC price" = true ∧
  Str.contains "ETH" "The BTC price" = false ∧
  Str.contains "" "abc" = true.
Proof. repeat split. Qed.

Example slice_negative :
  py_slice_to 2 [1; 2; 3] = [1; 2] ∧ py_slice_to (-1) [1; 2; 3] = [1; 2] ∧
  py_slice_to (-5) [1; 2; 3] = [].
Proof. repeat split. Qed.

(** the end-to-end example of the specification *)
Example analyze_sentiment_positive :
  ∃ resp,
    (analyze_sentiment demo_env "Bitcoin surges to new highs" "btc"
       empty_world).2 = inr resp ∧
    resp !! "coin" = Some (VStr "BTC") ∧
    resp !! "sentiment_label" = Some (VStr "positive").
Proof. eexists. split; [vm_compute; reflexivity|]. split; reflexivity. Qed.

Example history_backfilled :
  (get_coin_sentiment "btc" 7 demo_sentiment_world).2 =
  inr (history_response "BTC"
         [<["sentiment_label" := VStr "positive"]>
            (<["coin" := VStr "BTC"]>
               (<["text" := VStr "Bitcoin surges to new highs"]>
                  (<["sentiment_score" := VNum (7 # 10)]>
                     (<["timestamp" := VTime 1700000000000000]> ∅))))]).
Proof. vm_compute. reflexivity. Qed.

Example news_sentiment_one_coin_fails :
  ∃ results btc eth,
    (analyze_news_sentiment demo_env "BTC,ETH" 5 empty_world).2 =
      inr results ∧
    results !! "BTC" = Some btc ∧ results !! "ETH" = Some eth ∧
    btc !! "overall_sentiment" = Some (VStr "positive") ∧
    btc !! "error" = None ∧
    eth !! "error" =
      Some (VStr "Failed to analyze news sentiment: Connection aborted.") ∧
    eth !! "articles" = Some (VList []).
Proof.
  eexists _, _, _. split; [vm_compute; reflexivity|].
  repeat split; reflexivity.
Qed.

(** * Further properties of the handlers *)

(** ** routers/market_data.py *)

Lemma fetch_from_coinmarketcap_run E endpoint params w :
  fetch_from_coinmarketcap E endpoint params w =
  ({| colls := colls w; next_id := next_id w; ticks := ticks w;
      requests_log :=
        requests_log w ++
        [("https://pro-api.coinmarketcap.com/v1" +:+ "/" +:+ endpoint,
          params)] |},
   match fetch_attempt
           (requests_get E (length (requests_log w))
              ("https://pro-api.coinmarketcap.com/v1" +:+ "/" +:+ endpoint)
              params) with
   | inl msg =>
       inl (HTTPException 500
              ("Error fetching data from CoinMarketCap: " +:+ msg))
   | inr json => inr json
   end).
Proof.
  unfold fetch_from_coinmarketcap. rewrite mbind_run. unfold http_get.
  by destruct (fetch_attempt _).
Qed.

(** A request for market data that fails has stored nothing and has not
    read the clock: the snapshot is stored only after the provider has
    answered and the answer has been reshaped. It fails only past the
    cache, after exactly one request to the provider. *)
Theorem market_data_failure_writes_nothing E symbols limit use_cache w w' e :
  get_market_data E symbols limit use_cache w = (w', inl e) →
  colls w' = colls w ∧ next_id w' = next_id w ∧ ticks w' = ticks w ∧
  ∃ request, requests_log w' = requests_log w ++ [request].
Proof.
  assert (∀ w0, fetch_market_data E symbols limit w0 = (w', inl e) →
            colls w' = colls w0 ∧ next_id w' = next_id w0 ∧
            ticks w' = ticks w0 ∧
            ∃ request, requests_log w' = requests_log w0 ++ [request])
    as Hmiss.
  { intros w0. unfold fetch_market_data.
    rewrite mbind_run, fetch_from_coinmarketcap_run.
    destruct (fetch_attempt _) as [msg|json].
    - intros [= <- _]. repeat split. by eexists.
    - rewrite mbind_run. unfold lift.
      destruct (quotes_of json) as [e'|quotes].
      + intros [= <- _]. repeat split. by eexists.
      + intros Hstore.
        match type of Hstore with
        | store_market_data E ?d ?w1 = _ =>
            destruct (store_market_data_spec E d w1) as (w2 & Hrun & _)
        end.
        rewrite Hrun in Hstore. discriminate. }
  unfold get_market_data. destruct use_cache; [|apply Hmiss].
  rewrite mbind_run, get_latest_market_data_run.
  destruct (head _) as [cached|]; [|apply Hmiss].
  destruct (truthy_dict cached); [discriminate|apply Hmiss].
Qed.

Lemma market_data_failure_writes_nothing_witness :
  colls (get_market_data demo_env "BTC,ETH" 10 false demo_market_world).1 =
  colls demo_market_world.
Proof.
  refine (proj1 (market_data_failure_writes_nothing demo_env "BTC,ETH" 10
                   false demo_market_world _
                   (HTTPException 500
                      "Error fetching data from CoinMarketCap: Connection aborted.")
                   _)).
  vm_compute. reflexivity.
Defined.






(** The global metrics are never stored: the endpoint makes its one request
    to the provider and leaves the collections and the clock alone,
    whatever the outcome. An answer that is a JSON object without [data]
    makes it fail with its own error of status 500. *)
Theorem global_metrics_effects E w :
  let url :=
    "https://pro-api.coinmarketcap.com/v1" +:+ "/" +:+
    "global-metrics/quotes/latest" in
  let run := get_global_metrics E w in
  colls run.1 = colls w ∧ next_id run.1 = next_id w ∧
  ticks run.1 = ticks w ∧
  requests_log run.1 = requests_log w ++ [(url, None)] ∧
  ∀ answer : doc,
    fetch_attempt (requests_get E (length (requests_log w)) url None) =
      inr (VDict answer) →
    answer !! "data" = None →
    run.2 = inl (HTTPException 500 "Failed to fetch global metrics").
Proof.
  intros url run. subst run. unfold get_global_metrics.
  rewrite mbind_run, fetch_from_coinmarketcap_run. fold url.
  destruct (fetch_attempt _) as [msg|json] eqn:Hfetch.
  - by repeat split.
  - rewrite mbind_run. unfold lift.
    destruct (py_contains "data" json) as [e|[|]] eqn:Hhas.
    + repeat split; try done. by intros answer [= ->] Hdata.
    + repeat split; try done. intros answer [= ->] Hdata.
      simpl in Hhas. injection Hhas as Hhas.
      apply bool_decide_eq_true_1 in Hhas. rewrite Hdata in Hhas.
      by apply is_Some_None in Hhas.
    + by repeat split.
Qed.

(** ** routers/news.py *)















Example cached_news_filtered_by_coin :
  ∃ article,
    (get_crypto_news demo_env (Some "eth") 3 true demo_news_world).2 =
      inr (news_response [article]) ∧
    article !! "title" =
      Some (VStr "ETH Shows Promising Movement in Today's Trading") ∧
    article !! "_id" = None.
Proof. eexists. split; [vm_compute; reflexivity|]. split; reflexivity. Qed.

(** ** routers/sentiment.py *)

(** POST /analyze-sentiment always answers (the model and the store
    answering): it appends one sentiment record with the coin in upper
    case, the text and the score of the answer, but without the label, which
    is only in the answer; the timestamp of the answer is a second reading
    of the clock, taken after the one that stamps the record. *)
Theorem analyze_sentiment_persists E text coin w :
  let r := analyze_text_sentiment E text in
  ∃ w' resp record,
    analyze_sentiment E text coin w = (w', inr resp) ∧
    appended w w' SENTIMENT_COLLECTION [record] ∧
    ticks w' = S (S (ticks w)) ∧
    record !! "coin" = Some (VStr (Str.upper coin)) ∧
    record !! "text" = Some (VStr text) ∧
    record !! "sentiment_score" = Some (VNum (sentiment_score r)) ∧
    record !! "timestamp" = Some (VTime (time_source E (ticks w))) ∧
    record !! "sentiment_label" = None ∧
    resp !! "coin" = Some (VStr (Str.upper coin)) ∧
    resp !! "text" = Some (VStr text) ∧
    resp !! "sentiment_score" = Some (VNum (sentiment_score r)) ∧
    resp !! "sentiment_label" = Some (VStr (sentiment_label r)) ∧
    resp !! "timestamp" = Some (VTime (time_source E (S (ticks w)))).
Proof.
  intros r. unfold analyze_sentiment, try_except. fold r.
  rewrite mbind_run.
  destruct (store_sentiment_spec E (Str.upper coin) text (sentiment_score r) w)
    as (w1 & Hrun & Ha & _).
  assert (ticks w1 = S (ticks w)) as Hticks.
  { exact (eq_sym (f_equal (λ p, ticks p.1) Hrun)). }
  rewrite Hrun. rewrite mbind_run. unfold utcnow at 1.
  eexists _, _, _. split; [reflexivity|]. split; [|split].
  - intros n. unfold coll at 1. cbn [colls]. apply Ha.
  - cbn [ticks]. by rewrite Hticks.
  - rewrite !with_id_lookup_ne by done. rewrite Hticks.
    repeat split; by simplify_map_eq.
Qed.
